(** * API-key routes of the backend: [app/backend/routes/api_keys.py]

    A shallow embedding of the two route handlers of the module,
    [test_api_key] (POST /api/test-api-key) and [get_api_key_status]
    (GET /api/api-key-status), together with the facts the specification
    states about them.

    Conventions of the embedding.
    - Python [str] values are Rocq strings (byte strings); [str.title] is
      embedded on ASCII letters, bytes above 127 are left alone.  The only
      strings the handler title-cases are the six ASCII provider names.
    - Python [dict]s used as finite maps ([details], the status report, the
      process environment) are [gmap string _]; the header dictionaries and
      the JSON payload keep their insertion order and are association lists.
    - The handlers run in a small monad [Py] that threads the list of calls
      made on the HTTP client so far and may raise a Python exception.  The
      client and the remote provider together are an arbitrary function from
      the arguments of a call to what [httpx] hands back: a response, or an
      exception.  [outbound] lists the calls the handler made, each a request
      handed to the client; which of them the client went on to transmit is
      a separate matter, [on_the_wire].
    - The web framework is the function [fastapi_reply]: a returned value is
      a 200 reply, an [HTTPException] is a reply with its status and detail,
      any other exception is a bare 500. *)

From Stdlib Require Import ZArith QArith Ascii String List.
From stdpp Require Import base option gmap strings pretty.

#[local] Open Scope Z_scope.
#[local] Open Scope string_scope.

(** ** Strings *)

Module PyStr.

Definition islower (c : ascii) : bool :=
  let n := N_of_ascii c in (97 <=? n)%N && (n <=? 122)%N.

Definition isupper (c : ascii) : bool :=
  let n := N_of_ascii c in (65 <=? n)%N && (n <=? 90)%N.

Definition upper (c : ascii) : ascii :=
  if islower c then ascii_of_N (N_of_ascii c - 32) else c.

Definition lower (c : ascii) : ascii :=
  if isupper c then ascii_of_N (N_of_ascii c + 32) else c.

(** [str.title()]: a cased character that follows an uncased one (or starts
    the string) is upper-cased, a cased character that follows a cased one
    is lower-cased. *)
Fixpoint title_from (previous_is_cased : bool) (s : string) : string :=
  match s with
  | EmptyString => EmptyString
  | String c rest =>
      if islower c then
        String (if previous_is_cased then c else upper c) (title_from true rest)
      else if isupper c then
        String (if previous_is_cased then lower c else c) (title_from true rest)
      else String c (title_from false rest)
  end.

Definition title (s : string) : string := title_from false s.

(** [needle in haystack] *)
Fixpoint contains (needle haystack : string) : bool :=
  String.prefix needle haystack ||
  match haystack with
  | EmptyString => false
  | String _ rest => contains needle rest
  end.

(** [str(n)] for an [int] *)
Definition of_int (n : Z) : string := pretty n.

End PyStr.

(** ** Data model *)

(** Values stored in [Dict[str, Any]]: the handler stores [int]s and [str]s. *)
Inductive value :=
| VInt (n : Z)
| VStr (s : string).

(** JSON payloads, as the literal passed to [json=]. *)
#[local] Set Warnings "-register-all".
Inductive json :=
| JStr (s : string)
| JInt (n : Z)
| JList (items : list json)
| JDict (items : list (string * json)).

Record TestApiKeyRequest := {
  provider : string;
  apiKey : string;
  testEndpoint : string
}.

Record TestApiKeyResponse := {
  success : bool;
  message : string;
  details : gmap string value
}.

(** ** The HTTP client *)

Inductive http_method := GET | POST.

(** The arguments of one call of [client.get] / [client.post]: the request
    as the handler hands it to the client.  [httpx] builds and checks the
    request from them and may raise before anything is transmitted.
    [req_headers = None] and [req_json = None] stand for the keyword argument
    left out.  [req_timeout] is the timeout the client was created with, in
    seconds. *)
Record HttpRequest := {
  req_method : http_method;
  req_url : string;
  req_headers : option (list (string * string));
  req_json : option json;
  req_timeout : Q
}.

Record Response := {
  status_code : Z;
  text : string
}.

Record AsyncClient := { timeout : Q }.

(** ** Exceptions *)

(** [TimeoutException] stands for [httpx.TimeoutException] and its
    subclasses, [RequestError] for the remaining subclasses of
    [httpx.RequestError], [OtherException] for any other subclass of
    [Exception] (for instance [httpx.InvalidURL], [UnicodeEncodeError]). *)
Inductive exn :=
| HTTPException (status : Z) (detail : string)
| TimeoutException (description : string)
| RequestError (description : string)
| NameError (name : string)
| OtherException (description : string).

(** [isinstance(e, httpx.TimeoutException)] *)
Definition is_TimeoutException (e : exn) : bool :=
  match e with TimeoutException _ => true | _ => false end.

(** [isinstance(e, httpx.RequestError)]; [httpx.TimeoutException] derives
    from [httpx.TransportError], which derives from [httpx.RequestError]. *)
Definition is_RequestError (e : exn) : bool :=
  match e with TimeoutException _ | RequestError _ => true | _ => false end.

(** [str(e)].  [fastapi.HTTPException] prints as "<status>: <detail>". *)
Definition str (e : exn) : string :=
  match e with
  | HTTPException status detail => PyStr.of_int status +:+ ": " +:+ detail
  | TimeoutException description => description
  | RequestError description => description
  | NameError name => "name '" +:+ name +:+ "' is not defined"
  | OtherException description => description
  end.

(** ** The monad of handlers *)

(** A computation receives the calls made on the client so far and returns
    them, extended, with either the exception raised or the value. *)
Definition Py (A : Type) : Type :=
  list HttpRequest -> list HttpRequest * (exn + A).

#[global] Instance Py_ret : MRet Py :=
  fun A a sent => (sent, inr a).

#[global] Instance Py_bind : MBind Py :=
  fun A B f m sent =>
    match m sent with
    | (sent', inl e) => (sent', inl e)
    | (sent', inr a) => f a sent'
    end.

Definition raise {A : Type} (e : exn) : Py A :=
  fun sent => (sent, inl e).

(** [try: body / except Exception as e: handler e].  Requests issued by the
    body before it raised stay issued. *)
Definition try_except {A : Type} (body : Py A) (handler : exn -> Py A) : Py A :=
  fun sent =>
    match body sent with
    | (sent', inl e) => handler e sent'
    | (sent', inr a) => (sent', inr a)
    end.

(** [async with httpx.AsyncClient(timeout=t) as client: body]; leaving the
    block closes the client and lets exceptions through. *)
Definition async_with_AsyncClient {A : Type} (t : Q) (body : AsyncClient -> Py A) : Py A :=
  body {| timeout := t |}.

(** Running a handler from a fresh call. *)
Definition run {A : Type} (m : Py A) : list HttpRequest * (exn + A) := m [].

(** The calls a handler made on the HTTP client, in order. *)
Definition outbound {A : Type} (m : Py A) : list HttpRequest := fst (run m).

(** The requests a handler got transmitted: those of its calls on the client
    that went as far as transmitting.  [transmits] is decided by [httpx] and
    the network, not by the handler: a key that cannot be encoded into a
    header, a URL that does not parse or a connection that cannot be opened
    stop a call before anything is transmitted. *)
Definition on_the_wire {A : Type} (transmits : HttpRequest -> bool) (m : Py A)
    : list HttpRequest :=
  List.filter transmits (outbound m).

Definition outcome {A : Type} (m : Py A) : exn + A := snd (run m).

(** ** The framework *)

Inductive reply (A : Type) :=
| Reply200 (body : A)
| ReplyError (status : Z) (detail : string).

Arguments Reply200 {A} body.
Arguments ReplyError {A} status detail.

Definition fastapi_reply {A : Type} (r : exn + A) : reply A :=
  match r with
  | inr body => Reply200 body
  | inl (HTTPException status detail) => ReplyError status detail
  | inl _ => ReplyError 500 "Internal Server Error"
  end.

(** ** The module *)

(** Names bound at the top level of [api_keys.py]: its five import
    statements, [router], the two models and the two handlers. *)
Definition module_globals : list string :=
  [ "APIRouter"; "HTTPException"; "BaseModel"; "httpx"; "Dict"; "Any";
    "asyncio"; "router"; "TestApiKeyRequest"; "TestApiKeyResponse";
    "test_api_key"; "get_api_key_status" ].

(** Loading a global name that is not a builtin: [NameError] when the name
    is not bound in the module. *)
Definition load_global (globals : list string) (name : string) : Py unit :=
  if bool_decide (name ∈ globals) then mret tt else raise (NameError name).

(** [bool(x)] for [x : Optional[str]] *)
Definition bool_of (x : option string) : bool :=
  match x with
  | None => false
  | Some s => negb (String.eqb s "")
  end.

Section Handlers.

(** What the client hands back for a call: the provider's response, or the
    exception [httpx] raised (before or after transmitting). *)
Variable upstream : HttpRequest -> exn + Response.

(** The process environment, [os.environ]. *)
Variable environ : gmap string string.

(** The names bound in the module running the handler. *)
Variable globals : list string.

(** One call on the client.  The call is recorded as made whether or not
    [httpx] goes on to transmit it. *)
Definition send (r : HttpRequest) : Py Response :=
  fun sent => ((sent ++ [r])%list, upstream r).

(** [client.get(url, headers=headers)] *)
Definition client_get (client : AsyncClient) (url : string)
    (headers : option (list (string * string))) : Py Response :=
  send {| req_method := GET; req_url := url; req_headers := headers;
          req_json := None; req_timeout := timeout client |}.

(** [client.post(url, headers=headers, json=data)] *)
Definition client_post (client : AsyncClient) (url : string)
    (headers : option (list (string * string))) (data : option json) : Py Response :=
  send {| req_method := POST; req_url := url; req_headers := headers;
          req_json := data; req_timeout := timeout client |}.

(** [test_api_key(request)] *)
Definition test_api_key (request : TestApiKeyRequest) : Py TestApiKeyResponse :=
  try_except
    (async_with_AsyncClient 10 (fun client =>
       response ←
         (if String.eqb (provider request) "openai" then
            let headers :=
              [ ("Authorization", "Bearer " +:+ apiKey request);
                ("Content-Type", "application/json") ] in
            client_get client "https://api.openai.com/v1/models" (Some headers)
          else if String.eqb (provider request) "anthropic" then
            let headers :=
              [ ("x-api-key", apiKey request);
                ("Content-Type", "application/json");
                ("anthropic-version", "2023-06-01") ] in
            let test_data :=
              JDict [ ("model", JStr "claude-3-haiku-20240307");
                      ("max_tokens", JInt 1);
                      ("messages",
                       JList [ JDict [ ("role", JStr "user");
                                       ("content", JStr "Hi") ] ]) ] in
            client_post client "https://api.anthropic.com/v1/messages"
              (Some headers) (Some test_data)
          else if String.eqb (provider request) "groq" then
            let headers :=
              [ ("Authorization", "Bearer " +:+ apiKey request);
                ("Content-Type", "application/json") ] in
            client_get client "https://api.groq.com/openai/v1/models" (Some headers)
          else if String.eqb (provider request) "deepseek" then
            let headers :=
              [ ("Authorization", "Bearer " +:+ apiKey request);
                ("Content-Type", "application/json") ] in
            client_get client "https://api.deepseek.com/v1/models" (Some headers)
          else if String.eqb (provider request) "google" then
            client_get client
              ("https://generativelanguage.googleapis.com/v1beta/models?key="
               +:+ apiKey request)
              None
          else if String.eqb (provider request) "financial" then
            let headers := [ ("X-API-KEY", apiKey request) ] in
            client_get client
              "https://api.financialdatasets.ai/company/facts/?ticker=AAPL"
              (Some headers)
          else
            raise (HTTPException 400
                     ("Unsupported provider: " +:+ provider request)));
       if (status_code response =? 200)%Z then
         mret {| success := true;
                 message := PyStr.title (provider request) +:+ " API key is valid";
                 details := {[ "status_code" := VInt (status_code response) ]} |}
       else if (status_code response =? 401)%Z then
         mret {| success := false;
                 message := "Invalid API key for " +:+ provider request;
                 details := {[ "status_code" := VInt (status_code response);
                               "error" := VStr "Unauthorized" ]} |}
       else if (status_code response =? 403)%Z then
         mret {| success := false;
                 message := "API key lacks required permissions for "
                            +:+ provider request;
                 details := {[ "status_code" := VInt (status_code response);
                               "error" := VStr "Forbidden" ]} |}
       else
         mret {| success := false;
                 message := "API test failed for " +:+ provider request;
                 details := {[ "status_code" := VInt (status_code response);
                               "error" := VStr (text response) ]} |}))
    (fun e =>
       if is_TimeoutException e then
         mret {| success := false;
                 message := "Timeout testing " +:+ provider request +:+ " API key";
                 details := {[ "error" := VStr "Request timeout" ]} |}
       else if is_RequestError e then
         mret {| success := false;
                 message := "Network error testing " +:+ provider request
                            +:+ " API key";
                 details := {[ "error" := VStr (str e) ]} |}
       else
         raise (HTTPException 500
                  ("Unexpected error testing API key: " +:+ str e))).

(** [os.getenv(key)]: the global [os] is looked up first. *)
Definition os_getenv (key : string) : Py (option string) :=
  _ ← load_global globals "os";
  mret (environ !! key).

(** The body of [get_api_key_status()] *)
Definition get_api_key_status_in : Py (gmap string (gmap string bool)) :=
  openai ← os_getenv "OPENAI_API_KEY";
  anthropic ← os_getenv "ANTHROPIC_API_KEY";
  groq ← os_getenv "GROQ_API_KEY";
  deepseek ← os_getenv "DEEPSEEK_API_KEY";
  google ← os_getenv "GOOGLE_API_KEY";
  financial ← os_getenv "FINANCIAL_DATASETS_API_KEY";
  mret {[ "openai" := {[ "configured" := bool_of openai; "required" := true ]};
          "anthropic" := {[ "configured" := bool_of anthropic; "required" := false ]};
          "groq" := {[ "configured" := bool_of groq; "required" := false ]};
          "deepseek" := {[ "configured" := bool_of deepseek; "required" := false ]};
          "google" := {[ "configured" := bool_of google; "required" := false ]};
          "financial" := {[ "configured" := bool_of financial; "required" := false ]} ]}.

End Handlers.

(** [get_api_key_status()], run in the module's own namespace. *)
Definition get_api_key_status (environ : gmap string string)
    : Py (gmap string (gmap string bool)) :=
  get_api_key_status_in environ module_globals.

(** The two routes, as seen by an HTTP client of the service. *)
Definition post_test_api_key (upstream : HttpRequest -> exn + Response)
    (request : TestApiKeyRequest) : reply TestApiKeyResponse :=
  fastapi_reply (outcome (test_api_key upstream request)).

Definition get_api_key_status_route (environ : gmap string string)
    : reply (gmap string (gmap string bool)) :=
  fastapi_reply (outcome (get_api_key_status environ)).

(** ** The recognised providers *)

Definition providers : list string :=
  [ "openai"; "anthropic"; "groq"; "deepseek"; "google"; "financial" ].

(** ** Providers used in examples *)

(** A provider that answers every request with the given status and body. *)
Definition answers (status : Z) (body : string) : HttpRequest -> exn + Response :=
  fun _ => inr {| status_code := status; text := body |}.

(** A provider whose every request ends in the given exception. *)
Definition fails (e : exn) : HttpRequest -> exn + Response :=
  fun _ => inl e.


(** The failures the handler anticipates: a response (of whatever status),
    a timeout, or another [httpx.RequestError]. *)
Definition anticipated (answer : exn + Response) : bool :=
  match answer with
  | inr _ => true
  | inl e => is_RequestError e
  end.

(** ** Query strings *)

(** The query component of a URL as RFC 3986 delimits it (from the first
    "?" up to the first "#"), cut into its "&"-separated [name=value] pairs.
    The pairs are raw: no percent-decoding and no "+"-decoding is applied,
    so this is the structure of the query, not the decoded values a server
    ends up with. *)
Module Url.

(** [s.partition(c)]: the text before the first [c], and the text after
    it when [c] occurs. *)
Fixpoint partition (c : ascii) (s : string) : string * option string :=
  match s with
  | EmptyString => (EmptyString, None)
  | String a rest =>
      if Ascii.eqb a c then (EmptyString, Some rest)
      else let (before, after) := partition c rest in (String a before, after)
  end.

(** [s.split(c)] *)
Fixpoint split (c : ascii) (s : string) : list string :=
  match s with
  | EmptyString => [EmptyString]
  | String a rest =>
      if Ascii.eqb a c then EmptyString :: split c rest
      else match split c rest with
           | first :: others => String a first :: others
           | [] => [String a EmptyString]
           end
  end.

Definition query (url : string) : string :=
  let without_fragment := fst (partition "#" url) in
  default EmptyString (snd (partition "?" without_fragment)).

Definition params (url : string) : list (string * string) :=
  map (fun pair => let (name, val) := partition "=" pair in
                   (name, default EmptyString val))
      (split "&" (query url)).

End Url.

(** ** Timing of an exchange *)

(** [httpx] applies the timeout of the client to each wait of an exchange on
    its own: acquiring a connection from the pool, connecting, writing the
    request, and each read of the response.  [waits] lists how long these
    waits last, in seconds, in the order they happen. *)
Definition exceeds (limit : Q) (waits : list Q) : bool :=
  existsb (fun wait => negb (Qle_bool wait limit)) waits.

Definition total_wait (waits : list Q) : Q :=
  fold_right Qplus 0%Q waits.

(** What the client hands back for a call whose exchange goes through
    [waits] and, when no wait is cut off, ends in [answer]. *)
Definition timed (waits : list Q) (answer : exn + Response)
    : HttpRequest -> exn + Response :=
  fun r =>
    if exceeds (req_timeout r) waits then inl (TimeoutException "timed out")
    else answer.

(** ** The claims that fail as written *)

(** The claim C5 as it is written: a probe that waits more than 10 seconds
    in total ends in the timeout result. *)
Definition times_out_on_total_wait (waits : list Q) (answer : exn + Response)
    (request : TestApiKeyRequest) : Prop :=
  (10 < total_wait waits)%Q ->
  post_test_api_key (timed waits answer) request
  = Reply200 {| success := false;
                message := "Timeout testing " +:+ provider request +:+ " API key";
                details := {[ "error" := VStr "Request timeout" ]} |}.

(** The claim C8 as it is written: the call sends exactly one request. *)
Definition exactly_one_request (upstream : HttpRequest -> exn + Response)
    (request : TestApiKeyRequest) : Prop :=
  length (outbound (test_api_key upstream request)) = 1%nat.

(** [key] occurs in the message or in a string held by the details. *)
Definition echoes (key : string) (result : TestApiKeyResponse) : bool :=
  PyStr.contains key (message result) ||
  existsb (fun entry => match snd entry with
                        | VStr s => PyStr.contains key s
                        | VInt _ => false
                        end)
          (map_to_list (details result)).

(** The claim C3 as it is written: the result of the call does not contain
    the submitted key. *)
Definition never_echoes (upstream : HttpRequest -> exn + Response)
    (request : TestApiKeyRequest) : Prop :=
  forall result : TestApiKeyResponse,
    post_test_api_key upstream request = Reply200 result ->
    echoes (apiKey request) result = false.

(** ** Vocabulary of the further properties *)

(** The provider names of the presence report, each with the environment
    variable [get_api_key_status] reads for it. *)
Definition status_variables : list (string * string) :=
  [ ("openai", "OPENAI_API_KEY");
    ("anthropic", "ANTHROPIC_API_KEY");
    ("groq", "GROQ_API_KEY");
    ("deepseek", "DEEPSEEK_API_KEY");
    ("google", "GOOGLE_API_KEY");
    ("financial", "FINANCIAL_DATASETS_API_KEY") ].

(** [c in s] for a single character [c] *)
Fixpoint occurs (c : ascii) (s : string) : bool :=
  match s with
  | EmptyString => false
  | String a rest => Ascii.eqb a c || occurs c rest
  end.

(** The URL the google branch builds for a key. *)
Definition google_url (key : string) : string :=
  "https://generativelanguage.googleapis.com/v1beta/models?key=" +:+ key.

(** Method, URL and body of a request: all of it but the headers. *)
Definition request_line (r : HttpRequest) : http_method * string * option json :=
  (req_method r, req_url r, req_json r).

(** ** Sanity checks on concrete calls *)

Example title_openai : PyStr.title "openai" = "Openai".
Proof. reflexivity. Qed.

Example title_mixed : PyStr.title "hello wORLD-x1y" = "Hello World-X1Y".
Proof. reflexivity. Qed.

Example scenario_openai_200 :
  post_test_api_key (answers 200 "{}")
    {| provider := "openai"; apiKey := "sk-test"; testEndpoint := "" |}
  = Reply200 {| success := true; message := "Openai API key is valid";
                details := {[ "status_code" := VInt 200 ]} |}.
Proof. reflexivity. Qed.

Example scenario_anthropic_401 :
  post_test_api_key (answers 401 "no")
    {| provider := "anthropic"; apiKey := "bad"; testEndpoint := "" |}
  = Reply200 {| success := false; message := "Invalid API key for anthropic";
                details := {[ "status_code" := VInt 401;
                              "error" := VStr "Unauthorized" ]} |}.
Proof. reflexivity. Qed.

Lemma recognized_cases (p : string) :
  p ∈ providers ->
  p = "openai" \/ p = "anthropic" \/ p = "groq" \/ p = "deepseek" \/
  p = "google" \/ p = "financial".
Proof.
  unfold providers. rewrite !elem_of_cons, elem_of_nil. tauto.
Qed.

Lemma unrecognized_eqb (p q : string) :
  p ∉ providers -> q ∈ providers -> String.eqb p q = false.
Proof.
  intros Hp Hq. apply String.eqb_neq. intros ->. contradiction.
Qed.

(** Unfolding a handler down to the calls of [upstream]. *)
Ltac unfold_handler :=
  unfold post_test_api_key, outcome, outbound, run, test_api_key, try_except, async_with_AsyncClient, client_get,
    client_post, send, raise, mbind, mret, Py_bind, Py_ret in *.

(** Case analysis on a recognised provider name. *)
Ltac provider_cases H :=
  apply recognized_cases in H;
  destruct H as [H | [H | [H | [H | [H | H]]]]]; rewrite H in *; clear H.

(** What the handler does with a provider it does not know: no request
    leaves, and the 400 raised in the [else] branch is caught by the
    handler's own [except Exception] clause and re-raised as a 500. *)
Lemma unrecognized_run upstream (request : TestApiKeyRequest) :
  provider request ∉ providers ->
  run (test_api_key upstream request)
  = ([], inl (HTTPException 500
                ("Unexpected error testing API key: 400: Unsupported provider: "
                 +:+ provider request))).
Proof.
  intros Hp. unfold_handler.
  rewrite !(unrecognized_eqb _ _ Hp) by (unfold providers; set_solver).
  reflexivity.
Qed.

(** What the handler does with a recognised provider: it calls the client
    once, and the call ends according to what came back for that request. *)
Lemma recognized_run upstream (request : TestApiKeyRequest) :
  provider request ∈ providers ->
  exists r : HttpRequest,
    outbound (test_api_key upstream request) = [r] /\
    outcome (test_api_key upstream request) =
      match upstream r with
      | inr response =>
          inr (if (status_code response =? 200)%Z then
                 {| success := true;
                    message := PyStr.title (provider request) +:+ " API key is valid";
                    details := {[ "status_code" := VInt (status_code response) ]} |}
               else if (status_code response =? 401)%Z then
                 {| success := false;
                    message := "Invalid API key for " +:+ provider request;
                    details := {[ "status_code" := VInt (status_code response);
                                  "error" := VStr "Unauthorized" ]} |}
               else if (status_code response =? 403)%Z then
                 {| success := false;
                    message := "API key lacks required permissions for "
                               +:+ provider request;
                    details := {[ "status_code" := VInt (status_code response);
                                  "error" := VStr "Forbidden" ]} |}
               else
                 {| success := false;
                    message := "API test failed for " +:+ provider request;
                    details := {[ "status_code" := VInt (status_code response);
                                  "error" := VStr (text response) ]} |})
      | inl e =>
          if is_TimeoutException e then
            inr {| success := false;
                   message := "Timeout testing " +:+ provider request +:+ " API key";
                   details := {[ "error" := VStr "Request timeout" ]} |}
          else if is_RequestError e then
            inr {| success := false;
                   message := "Network error testing " +:+ provider request
                              +:+ " API key";
                   details := {[ "error" := VStr (str e) ]} |}
          else
            inl (HTTPException 500 ("Unexpected error testing API key: " +:+ str e))
      end.
Proof.
  intros Hp. destruct request as [p key endpoint]. cbn [provider] in *.
  provider_cases Hp; unfold_handler;
    cbn [provider apiKey String.eqb Ascii.eqb Bool.eqb timeout]; cbv beta iota;
    match goal with
    | |- context [upstream ?r] => exists r; destruct (upstream r) as [e | response]
    end;
    try (destruct e; split; reflexivity);
    repeat (destruct (_ =? _)%Z; [split; reflexivity |]); split; reflexivity.
Qed.

Example params_plain :
  Url.params "https://generativelanguage.googleapis.com/v1beta/models?key=AIzaSy"
  = [("key", "AIzaSy")].
Proof. reflexivity. Qed.

(** ** The presence report *)

Lemma bool_of_spec (x : option string) :
  bool_of x = true <-> exists v, x = Some v /\ v <> "".
Proof.
  destruct x as [v |]; cbn.
  - rewrite negb_true_iff, String.eqb_neq. split.
    + intros Hv. exists v. auto.
    + intros (w & [= <-] & Hw). exact Hw.
  - split; [discriminate | intros (v & [=] & _)].
Qed.

(** Had the module bound the name [os], the report would be the mapping over
    the six providers, computed without any outbound request. *)
Lemma get_api_key_status_with_os (environ : gmap string string) (globals : list string) :
  "os" ∈ globals ->
  run (get_api_key_status_in environ globals)
  = ([], inr {[ "openai" := {[ "configured" := bool_of (environ !! "OPENAI_API_KEY");
                               "required" := true ]};
                "anthropic" := {[ "configured" := bool_of (environ !! "ANTHROPIC_API_KEY");
                                  "required" := false ]};
                "groq" := {[ "configured" := bool_of (environ !! "GROQ_API_KEY");
                             "required" := false ]};
                "deepseek" := {[ "configured" := bool_of (environ !! "DEEPSEEK_API_KEY");
                                 "required" := false ]};
                "google" := {[ "configured" := bool_of (environ !! "GOOGLE_API_KEY");
                               "required" := false ]};
                "financial" := {[ "configured" :=
                                    bool_of (environ !! "FINANCIAL_DATASETS_API_KEY");
                                  "required" := false ]} ]}).
Proof.
  intros Hos.
  unfold run, get_api_key_status_in, os_getenv, load_global, mbind, mret,
    Py_bind, Py_ret.
  rewrite (bool_decide_eq_true_2 _ Hos). reflexivity.
Qed.

(** C2 (the code departs from the claim).  The module never imports [os]:
    whatever the process environment holds, the first [os.getenv] of
    [get_api_key_status] raises [NameError], no mapping is returned, and the
    route answers with status 500 instead of 200. *)
Theorem get_api_key_status_name_error (environ : gmap string string) :
  outcome (get_api_key_status environ) = inl (NameError "os") /\
  get_api_key_status_route environ = ReplyError 500 "Internal Server Error".
Proof.
  unfold get_api_key_status_route.
  assert (outcome (get_api_key_status environ) = inl (NameError "os")) as ->
    by reflexivity.
  split; reflexivity.
Qed.

(** ** The probe *)

(** C1 (the code departs from the claim).  For a provider outside the six
    recognised names no request is sent and no ProbeResult is returned, but
    the reply carries status 500, not 400: the [HTTPException] with status
    400 is raised inside the [try] block and caught by its
    [except Exception] clause.  The detail still names the provider. *)
Theorem unsupported_provider_yields_500 upstream (request : TestApiKeyRequest) :
  provider request ∉ providers ->
  post_test_api_key upstream request
  = ReplyError 500
      ("Unexpected error testing API key: 400: Unsupported provider: "
       +:+ provider request)
  /\ outbound (test_api_key upstream request) = [].
Proof.
  intros Hp. unfold post_test_api_key, outcome, outbound.
  rewrite (unrecognized_run upstream request Hp). split; reflexivity.
Qed.

Lemma unsupported_provider_yields_500_witness :
  post_test_api_key (answers 200 "{}")
    {| provider := "bogus"; apiKey := "sk-test"; testEndpoint := "" |}
  = ReplyError 500
      "Unexpected error testing API key: 400: Unsupported provider: bogus"
  /\ outbound (test_api_key (answers 200 "{}")
       {| provider := "bogus"; apiKey := "sk-test"; testEndpoint := "" |}) = [].
Proof.
  apply (unsupported_provider_yields_500 (answers 200 "{}")
           {| provider := "bogus"; apiKey := "sk-test"; testEndpoint := "" |}).
  cbn. unfold providers. rewrite !elem_of_cons, elem_of_nil.
  intros [H | [H | [H | [H | [H | [H | H]]]]]]; try discriminate H; exact H.
Defined.

(** Settling a goal on the requests leaving a call with a concrete provider
    name: run the handler up to the call of [upstream], then follow every
    way the call can end. *)
Ltac follow_probe_then finish :=
  unfold_handler;
  cbn [provider apiKey String.eqb Ascii.eqb Bool.eqb timeout]; cbv beta iota;
  match goal with
  | |- context [?up ?r] =>
      match type of (up r) with
      | (exn + Response)%type => destruct (up r) as [[] | ?]
      end
  end;
  try (cbn [fst snd app]; finish);
  repeat (destruct (_ =? _)%Z; [cbn [fst snd app]; finish |]);
  cbn [fst snd app]; finish.

Ltac follow_probe := follow_probe_then ltac:(reflexivity).

(** Every request of a call leaves through the client created at the top of
    the handler, whose timeout is 10 seconds. *)
Lemma outbound_timeout upstream (request : TestApiKeyRequest) :
  Forall (fun r => req_timeout r = 10%Q) (outbound (test_api_key upstream request)).
Proof.
  destruct (decide (provider request ∈ providers)) as [Hp | Hp].
  - destruct request as [p key endpoint]. cbn [provider] in Hp.
    provider_cases Hp; follow_probe_then ltac:(repeat constructor).
  - unfold outbound. rewrite (unrecognized_run upstream request Hp). constructor.
Qed.

(** C7.  For each of the six providers the call sends the request of the
    table: method, URL, authentication headers and body.  The four
    bearer/x-api-key providers that talk JSON also carry a [Content-Type]
    header; google carries no header at all, its key is in the URL. *)
Theorem probe_request_table upstream (key endpoint : string) :
  outbound (test_api_key upstream
              {| provider := "openai"; apiKey := key; testEndpoint := endpoint |})
  = [ {| req_method := GET;
         req_url := "https://api.openai.com/v1/models";
         req_headers := Some [ ("Authorization", "Bearer " +:+ key);
                               ("Content-Type", "application/json") ];
         req_json := None;
         req_timeout := 10 |} ]
  /\
  outbound (test_api_key upstream
              {| provider := "anthropic"; apiKey := key; testEndpoint := endpoint |})
  = [ {| req_method := POST;
         req_url := "https://api.anthropic.com/v1/messages";
         req_headers := Some [ ("x-api-key", key);
                               ("Content-Type", "application/json");
                               ("anthropic-version", "2023-06-01") ];
         req_json :=
           Some (JDict [ ("model", JStr "claude-3-haiku-20240307");
                         ("max_tokens", JInt 1);
                         ("messages",
                          JList [ JDict [ ("role", JStr "user");
                                          ("content", JStr "Hi") ] ]) ]);
         req_timeout := 10 |} ]
  /\
  outbound (test_api_key upstream
              {| provider := "groq"; apiKey := key; testEndpoint := endpoint |})
  = [ {| req_method := GET;
         req_url := "https://api.groq.com/openai/v1/models";
         req_headers := Some [ ("Authorization", "Bearer " +:+ key);
                               ("Content-Type", "application/json") ];
         req_json := None;
         req_timeout := 10 |} ]
  /\
  outbound (test_api_key upstream
              {| provider := "deepseek"; apiKey := key; testEndpoint := endpoint |})
  = [ {| req_method := GET;
         req_url := "https://api.deepseek.com/v1/models";
         req_headers := Some [ ("Authorization", "Bearer " +:+ key);
                               ("Content-Type", "application/json") ];
         req_json := None;
         req_timeout := 10 |} ]
  /\
  outbound (test_api_key upstream
              {| provider := "google"; apiKey := key; testEndpoint := endpoint |})
  = [ {| req_method := GET;
         req_url := "https://generativelanguage.googleapis.com/v1beta/models?key="
                    +:+ key;
         req_headers := None;
         req_json := None;
         req_timeout := 10 |} ]
  /\
  outbound (test_api_key upstream
              {| provider := "financial"; apiKey := key; testEndpoint := endpoint |})
  = [ {| req_method := GET;
         req_url := "https://api.financialdatasets.ai/company/facts/?ticker=AAPL";
         req_headers := Some [ ("X-API-KEY", key) ];
         req_json := None;
         req_timeout := 10 |} ].
Proof.
  repeat split; follow_probe.
Qed.

(** C9.  For google the key is appended to the URL as it is, with no header
    and no escaping.  A key holding "&" therefore reaches the provider as
    two parameters, and a key holding "#" is cut at that character: in both
    cases the query is not the single parameter key=<apiKey>. *)
Theorem google_key_interpolated_unescaped :
  (forall upstream (key endpoint : string),
      exists r : HttpRequest,
        outbound (test_api_key upstream
                    {| provider := "google"; apiKey := key; testEndpoint := endpoint |})
        = [r] /\
        req_url r = "https://generativelanguage.googleapis.com/v1beta/models?key="
                    +:+ key /\
        req_headers r = None) /\
  (let url := "https://generativelanguage.googleapis.com/v1beta/models?key="
              +:+ "AIza&alt=sse" in
   Url.params url = [("key", "AIza"); ("alt", "sse")] /\
   Url.params url <> [("key", "AIza&alt=sse")]) /\
  (let url := "https://generativelanguage.googleapis.com/v1beta/models?key="
              +:+ "AIza#1" in
   Url.params url = [("key", "AIza")] /\
   Url.params url <> [("key", "AIza#1")]).
Proof.
  split; [| split].
  - intros upstream key endpoint. eexists. split; [| split].
    + follow_probe.
    + reflexivity.
    + reflexivity.
  - cbv zeta. split; [reflexivity | discriminate].
  - cbv zeta. split; [reflexivity | discriminate].
Qed.

(** C8, counterexample.  A call naming an unknown provider is rejected
    before any request is built: nothing is sent. *)
Lemma no_request_for_unknown_provider :
  ~ exactly_one_request (answers 200 "{}")
      {| provider := "bogus"; apiKey := "sk-test"; testEndpoint := "" |}.
Proof.
  unfold exactly_one_request. cbn. discriminate.
Qed.

(** C8, as amended.  Whatever comes back (a response of any status, a
    timeout, a network fault or any other exception), the handler never
    retries: it calls the client exactly once when the provider is one of
    the six recognised names and not at all otherwise, so at most one
    request is transmitted for a recognised provider (none when the client
    stops before transmitting) and none for an unrecognised one. *)
Theorem at_most_one_request (transmits : HttpRequest -> bool) upstream
    (request : TestApiKeyRequest) :
  length (outbound (test_api_key upstream request))
  = (if bool_decide (provider request ∈ providers) then 1%nat else 0%nat) /\
  (length (on_the_wire transmits (test_api_key upstream request))
   <= (if bool_decide (provider request ∈ providers) then 1 else 0))%nat.
Proof.
  unfold on_the_wire. case_bool_decide as Hp.
  - destruct (recognized_run upstream request Hp) as (r & -> & _).
    split; [reflexivity |]. cbn. destruct (transmits r); cbn; lia.
  - unfold outbound. rewrite (unrecognized_run upstream request Hp).
    split; [reflexivity |]. cbn. lia.
Qed.

(** ** Classification of the outcome *)

(** The first letter of a recognised provider name is upper-cased by
    [str.title], the rest is unchanged. *)
Lemma title_provider (p : string) :
  p ∈ providers ->
  exists c rest, p = String c rest /\ PyStr.title p = String (PyStr.upper c) rest.
Proof.
  intros Hp. provider_cases Hp; do 2 eexists; split; reflexivity.
Qed.

(** C4.  For a recognised provider the result depends on the status of the
    response alone: 200 is a success whose message starts with the
    title-cased provider name and whose details hold the status code only;
    401 and 403 are failures with error "Unauthorized" and "Forbidden"; any
    other status is a failure whose error is the body text of the response. *)
Theorem classification_by_status upstream (request : TestApiKeyRequest)
    (r : HttpRequest) (response : Response) :
  provider request ∈ providers ->
  r ∈ outbound (test_api_key upstream request) ->
  upstream r = inr response ->
  (status_code response = 200 ->
   post_test_api_key upstream request
   = Reply200 {| success := true;
                 message := PyStr.title (provider request) +:+ " API key is valid";
                 details := {[ "status_code" := VInt 200 ]} |}) /\
  (status_code response = 401 ->
   post_test_api_key upstream request
   = Reply200 {| success := false;
                 message := "Invalid API key for " +:+ provider request;
                 details := {[ "status_code" := VInt 401;
                               "error" := VStr "Unauthorized" ]} |}) /\
  (status_code response = 403 ->
   post_test_api_key upstream request
   = Reply200 {| success := false;
                 message := "API key lacks required permissions for "
                            +:+ provider request;
                 details := {[ "status_code" := VInt 403;
                               "error" := VStr "Forbidden" ]} |}) /\
  (status_code response <> 200 -> status_code response <> 401 ->
   status_code response <> 403 ->
   post_test_api_key upstream request
   = Reply200 {| success := false;
                 message := "API test failed for " +:+ provider request;
                 details := {[ "status_code" := VInt (status_code response);
                               "error" := VStr (text response) ]} |}) /\
  (exists c rest,
      provider request = String c rest /\
      PyStr.title (provider request) = String (PyStr.upper c) rest).
Proof.
  intros Hp Hr Hup.
  destruct (recognized_run upstream request Hp) as (r' & Hsent & Hout).
  rewrite Hsent in Hr. apply list_elem_of_singleton in Hr. subst r'.
  unfold post_test_api_key. rewrite Hout, Hup. clear Hout Hsent Hup.
  repeat split.
  - intros ->. reflexivity.
  - intros ->. reflexivity.
  - intros ->. reflexivity.
  - intros H200 H401 H403.
    rewrite <- Z.eqb_neq in H200, H401, H403. rewrite H200, H401, H403.
    reflexivity.
  - apply title_provider, Hp.
Qed.

Lemma classification_by_status_witness :
  post_test_api_key (answers 200 "{}")
    {| provider := "groq"; apiKey := "gsk-test"; testEndpoint := "" |}
  = Reply200 {| success := true;
                message := "Groq API key is valid";
                details := {[ "status_code" := VInt 200 ]} |}.
Proof.
  refine (proj1 (classification_by_status (answers 200 "{}")
                   {| provider := "groq"; apiKey := "gsk-test"; testEndpoint := "" |}
                   {| req_method := GET;
                      req_url := "https://api.groq.com/openai/v1/models";
                      req_headers := Some [ ("Authorization", "Bearer gsk-test");
                                            ("Content-Type", "application/json") ];
                      req_json := None;
                      req_timeout := 10 |}
                   {| status_code := 200; text := "{}" |} _ _ _) _).
  - cbn. unfold providers. set_solver.
  - apply list_elem_of_here.
  - reflexivity.
  - reflexivity.
Defined.

(** C5, counterexample.  An exchange that waits 8 seconds to connect and
    then 8 and 8.1 seconds on two reads has waited 24.1 seconds in total,
    yet no single wait passes the 10 seconds of the client: the probe does
    not time out and the key is reported valid. *)
Lemma no_timeout_on_total_wait :
  ~ times_out_on_total_wait [8; 8; 81 # 10]%Q
      (inr {| status_code := 200; text := "{}" |})
      {| provider := "openai"; apiKey := "sk-test"; testEndpoint := "" |}.
Proof.
  intros Htimes. unfold times_out_on_total_wait in Htimes.
  assert (10 < total_wait [8; 8; 81 # 10])%Q as Htotal by reflexivity.
  specialize (Htimes Htotal).
  apply (f_equal (fun answer => match answer with
                                | Reply200 result => success result
                                | ReplyError _ _ => false
                                end)) in Htimes.
  vm_compute in Htimes. discriminate Htimes.
Qed.

(** C5, as amended.  Every call on the client is made with a timeout of 10
    seconds, which bounds each wait of the exchange on its own and not their
    total: for a recognised provider the probe ends in the timeout result
    exactly when some single wait passes 10 seconds, and otherwise ends as
    the answer of the provider has it, however long the waits add up to.  A
    timeout raised while awaiting the response ends the call with the
    structured result, delivered as an ordinary 200 reply. *)
Theorem timeout_applies_to_each_wait upstream (request : TestApiKeyRequest) :
  Forall (fun r => req_timeout r = 10%Q) (outbound (test_api_key upstream request)) /\
  (forall (r : HttpRequest) (description : string),
      r ∈ outbound (test_api_key upstream request) ->
      upstream r = inl (TimeoutException description) ->
      post_test_api_key upstream request
      = Reply200 {| success := false;
                    message := "Timeout testing " +:+ provider request +:+ " API key";
                    details := {[ "error" := VStr "Request timeout" ]} |}) /\
  (forall (waits : list Q) (answer : exn + Response),
      provider request ∈ providers ->
      post_test_api_key (timed waits answer) request
      = if exceeds 10 waits then
          Reply200 {| success := false;
                      message := "Timeout testing " +:+ provider request
                                 +:+ " API key";
                      details := {[ "error" := VStr "Request timeout" ]} |}
        else post_test_api_key (fun _ => answer) request).
Proof.
  split; [apply outbound_timeout |]. split.
  - intros r description Hr Hup.
    destruct (decide (provider request ∈ providers)) as [Hp | Hp].
    + destruct (recognized_run upstream request Hp) as (r' & Hsent & Hout).
      rewrite Hsent in Hr. apply list_elem_of_singleton in Hr. subst r'.
      unfold post_test_api_key. rewrite Hout, Hup. reflexivity.
    + unfold outbound in Hr. rewrite (unrecognized_run upstream request Hp) in Hr.
      cbn in Hr. apply elem_of_nil in Hr. contradiction.
  - intros waits answer Hp.
    destruct (recognized_run (timed waits answer) request Hp) as (r & Hsent & Hout).
    pose proof (outbound_timeout (timed waits answer) request) as Hlimit.
    rewrite Hsent in Hlimit. apply Forall_inv in Hlimit.
    unfold post_test_api_key at 1. rewrite Hout. unfold timed. rewrite Hlimit.
    destruct (exceeds 10 waits).
    + reflexivity.
    + destruct (recognized_run (fun _ => answer) request Hp) as (r' & _ & Hout').
      unfold post_test_api_key. rewrite Hout'. reflexivity.
Qed.

Lemma timeout_applies_to_each_wait_witness :
  post_test_api_key (timed [2; 11]%Q (inr {| status_code := 200; text := "{}" |}))
    {| provider := "openai"; apiKey := "sk-test"; testEndpoint := "" |}
  = Reply200 {| success := false;
                message := "Timeout testing openai API key";
                details := {[ "error" := VStr "Request timeout" ]} |}.
Proof.
  refine (proj2 (proj2 (timeout_applies_to_each_wait (answers 200 "{}")
                          {| provider := "openai"; apiKey := "sk-test";
                             testEndpoint := "" |}))
            [2; 11]%Q (inr {| status_code := 200; text := "{}" |}) _).
  cbn. unfold providers. set_solver.
Defined.

(** C6.  For a recognised provider a network fault other than a timeout
    ends the call with the "Network error" result carrying the fault's
    description, and every anticipated way the request can end (a response
    of any status, a timeout, a network fault) yields a ProbeResult in a
    200 reply: no exception leaves the handler. *)
Theorem network_fault_is_structured_result upstream (request : TestApiKeyRequest) :
  provider request ∈ providers ->
  exists r : HttpRequest,
    outbound (test_api_key upstream request) = [r] /\
    (forall description : string,
        upstream r = inl (RequestError description) ->
        post_test_api_key upstream request
        = Reply200 {| success := false;
                      message := "Network error testing " +:+ provider request
                                 +:+ " API key";
                      details := {[ "error" := VStr description ]} |}) /\
    (anticipated (upstream r) = true ->
     exists result : TestApiKeyResponse,
       outcome (test_api_key upstream request) = inr result /\
       post_test_api_key upstream request = Reply200 result).
Proof.
  intros Hp.
  destruct (recognized_run upstream request Hp) as (r & Hsent & Hout).
  exists r. split; [exact Hsent |]. unfold post_test_api_key. rewrite Hout.
  split.
  - intros description ->. reflexivity.
  - destruct (upstream r) as [e | response]; cbn [anticipated].
    + destruct e; cbn; intros He; try discriminate He; eexists; split; reflexivity.
    + intros _. eexists. split; reflexivity.
Qed.

Lemma network_fault_is_structured_result_witness :
  post_test_api_key (fails (RequestError "All connection attempts failed"))
    {| provider := "deepseek"; apiKey := "sk-test"; testEndpoint := "" |}
  = Reply200 {| success := false;
                message := "Network error testing deepseek API key";
                details := {[ "error" := VStr "All connection attempts failed" ]} |}.
Proof.
  assert (provider {| provider := "deepseek"; apiKey := "sk-test"; testEndpoint := "" |}
          ∈ providers) as Hp by (cbn; unfold providers; set_solver).
  destruct (network_fault_is_structured_result
              (fails (RequestError "All connection attempts failed")) _ Hp)
    as (r & _ & Hfault & _).
  apply (Hfault "All connection attempts failed"). reflexivity.
Defined.

(** ** The submitted key and the result *)

(** C3, counterexample.  On a status other than 200, 401 and 403 the body of
    the provider's response is copied into [details]; a provider that quotes
    the rejected key in its error body gets it passed on to the caller. *)
Lemma api_key_echoed_from_upstream_body :
  ~ never_echoes (answers 400 "API key not valid: AIza-secret")
      {| provider := "google"; apiKey := "AIza-secret"; testEndpoint := "" |}.
Proof.
  intros Hnever.
  specialize (Hnever
                {| success := false;
                   message := "API test failed for google";
                   details := {[ "status_code" := VInt 400;
                                 "error" := VStr "API key not valid: AIza-secret" ]} |}
                eq_refl).
  vm_compute in Hnever. discriminate Hnever.
Qed.

(** C3, as amended.  The handler never copies the key into the result: the
    outcome of a call is determined by the provider name and by what came
    back for the request sent.  Two calls for the same provider whose
    requests met the same answer end alike, whatever keys (and test
    endpoints) were submitted. *)
Theorem outcome_independent_of_api_key upstream1 upstream2
    (request1 request2 : TestApiKeyRequest) :
  provider request1 = provider request2 ->
  (forall r1 r2 : HttpRequest,
      r1 ∈ outbound (test_api_key upstream1 request1) ->
      r2 ∈ outbound (test_api_key upstream2 request2) ->
      upstream1 r1 = upstream2 r2) ->
  outcome (test_api_key upstream1 request1) = outcome (test_api_key upstream2 request2)
  /\ post_test_api_key upstream1 request1 = post_test_api_key upstream2 request2.
Proof.
  intros Hsame Hanswer.
  cut (outcome (test_api_key upstream1 request1)
       = outcome (test_api_key upstream2 request2)).
  { intros Hout. split; [exact Hout |]. unfold post_test_api_key. now rewrite Hout. }
  destruct (decide (provider request1 ∈ providers)) as [Hp1 | Hp1].
  - assert (provider request2 ∈ providers) as Hp2 by (rewrite <- Hsame; exact Hp1).
    destruct (recognized_run upstream1 request1 Hp1) as (r1 & Hsent1 & ->).
    destruct (recognized_run upstream2 request2 Hp2) as (r2 & Hsent2 & ->).
    rewrite (Hanswer r1 r2), Hsame.
    + reflexivity.
    + rewrite Hsent1. apply list_elem_of_here.
    + rewrite Hsent2. apply list_elem_of_here.
  - assert (provider request2 ∉ providers) as Hp2 by (rewrite <- Hsame; exact Hp1).
    unfold outcome.
    rewrite (unrecognized_run upstream1 request1 Hp1).
    rewrite (unrecognized_run upstream2 request2 Hp2).
    rewrite Hsame. reflexivity.
Qed.

Lemma outcome_independent_of_api_key_witness :
  post_test_api_key (answers 401 "denied")
    {| provider := "anthropic"; apiKey := "sk-ant-one"; testEndpoint := "" |}
  = post_test_api_key (answers 401 "denied")
      {| provider := "anthropic"; apiKey := "sk-ant-two"; testEndpoint := "x" |}.
Proof.
  refine (proj2 (outcome_independent_of_api_key (answers 401 "denied")
                   (answers 401 "denied")
                   {| provider := "anthropic"; apiKey := "sk-ant-one";
                      testEndpoint := "" |}
                   {| provider := "anthropic"; apiKey := "sk-ant-two";
                      testEndpoint := "x" |} _ _)).
  - reflexivity.
  - intros r1 r2 _ _. reflexivity.
Defined.

(** ** Success and the error entry *)

(** C10.  In every ProbeResult the handler returns, success holds exactly
    when details has no "error" entry: a success carries the status code
    and nothing else, every failure carries an "error" entry. *)
Theorem success_iff_no_error_entry upstream (request : TestApiKeyRequest)
    (result : TestApiKeyResponse) :
  outcome (test_api_key upstream request) = inr result ->
  (success result = true <-> details result !! "error" = None) /\
  (success result = true -> details result = {[ "status_code" := VInt 200 ]}) /\
  (success result = false -> is_Some (details result !! "error")).
Proof.
  destruct (decide (provider request ∈ providers)) as [Hp | Hp].
  - destruct (recognized_run upstream request Hp) as (r & _ & ->).
    destruct (upstream r) as [e | response].
    + destruct e; cbn; intros [= <-]; cbn;
        (split; [split; discriminate | split; [discriminate | eexists; reflexivity]]).
    + destruct (Z.eqb_spec (status_code response) 200) as [-> | _];
        [| destruct (status_code response =? 401)%Z;
           [| destruct (status_code response =? 403)%Z]];
        intros [= <-]; cbn [success details].
      * split; [split; reflexivity | split; [reflexivity | discriminate]].
      * split; [split; discriminate | split; [discriminate | eexists; reflexivity]].
      * split; [split; discriminate | split; [discriminate | eexists; reflexivity]].
      * split; [split; discriminate | split; [discriminate | eexists; reflexivity]].
  - unfold outcome. rewrite (unrecognized_run upstream request Hp). discriminate.
Qed.

Lemma success_iff_no_error_entry_witness :
  (success {| success := false;
              message := "API key lacks required permissions for financial";
              details := {[ "status_code" := VInt 403;
                            "error" := VStr "Forbidden" ]} |} = true
   <-> ({[ "status_code" := VInt 403; "error" := VStr "Forbidden" ]}
          : gmap string value) !! "error" = None).
Proof.
  refine (proj1 (success_iff_no_error_entry (answers 403 "")
                   {| provider := "financial"; apiKey := "fd-test"; testEndpoint := "" |}
                   {| success := false;
                      message := "API key lacks required permissions for financial";
                      details := {[ "status_code" := VInt 403;
                                    "error" := VStr "Forbidden" ]} |} _)).
  reflexivity.
Defined.

(** ** Further properties of the probe *)

(** The requests a call sends are fixed by the call alone, not by what the
    provider answers: they are those sent when every answer is a 200. *)
Lemma outbound_canonical upstream (request : TestApiKeyRequest) :
  outbound (test_api_key upstream request)
  = outbound (test_api_key (answers 200 EmptyString) request).
Proof.
  destruct (decide (provider request ∈ providers)) as [Hp | Hp].
  - destruct request as [p key endpoint]. cbn [provider] in Hp.
    provider_cases Hp;
      match goal with
      | |- _ = ?sent => let sent' := eval cbv in sent in change sent with sent'
      end;
      follow_probe.
  - unfold outbound.
    rewrite (unrecognized_run upstream request Hp).
    rewrite (unrecognized_run (answers 200 EmptyString) request Hp). reflexivity.
Qed.

(** X1.  Once the body of the request has been parsed into a
    [TestApiKeyRequest], the call of the handler is answered with status 200
    and a ProbeResult, or with status 500: the handler never produces a 400
    or any other status.  (A body that does not parse is answered by the
    framework without the handler being called.) *)
Theorem reply_is_200_or_500 upstream (request : TestApiKeyRequest) :
  (exists result : TestApiKeyResponse,
      outcome (test_api_key upstream request) = inr result /\
      post_test_api_key upstream request = Reply200 result) \/
  (exists detail : string,
      post_test_api_key upstream request = ReplyError 500 detail).
Proof.
  unfold post_test_api_key.
  destruct (decide (provider request ∈ providers)) as [Hp | Hp].
  - destruct (recognized_run upstream request Hp) as (r & _ & ->).
    destruct (upstream r) as [e | response].
    + destruct e; cbn; first [ left; eexists; split; reflexivity
                             | right; eexists; reflexivity ].
    + left. eexists. split; reflexivity.
  - right. unfold outcome. rewrite (unrecognized_run upstream request Hp).
    eexists. reflexivity.
Qed.

(** X2.  A call reports success exactly when the provider is recognised and
    the one request sent was answered with status 200. *)
Theorem success_exactly_on_200 upstream (request : TestApiKeyRequest) :
  (exists result : TestApiKeyResponse,
      outcome (test_api_key upstream request) = inr result /\
      success result = true)
  <->
  (provider request ∈ providers /\
   exists (r : HttpRequest) (response : Response),
     outbound (test_api_key upstream request) = [r] /\
     upstream r = inr response /\
     status_code response = 200).
Proof.
  split.
  - intros (result & Hout & Hsuccess).
    destruct (decide (provider request ∈ providers)) as [Hp | Hp].
    + split; [exact Hp |].
      destruct (recognized_run upstream request Hp) as (r & Hsent & Hrun).
      rewrite Hrun in Hout. exists r.
      destruct (upstream r) as [e | response].
      * destruct e; cbn in Hout; try discriminate Hout;
          injection Hout as <-; discriminate Hsuccess.
      * exists response. split; [exact Hsent |]. split; [reflexivity |].
        destruct (Z.eqb_spec (status_code response) 200) as [H200 | _];
          [exact H200 |].
        destruct (status_code response =? 401)%Z;
          [| destruct (status_code response =? 403)%Z];
          injection Hout as <-; discriminate Hsuccess.
    + unfold outcome in Hout. rewrite (unrecognized_run upstream request Hp) in Hout.
      discriminate Hout.
  - intros (Hp & r & response & Hsent & Hup & H200).
    destruct (recognized_run upstream request Hp) as (r' & Hsent' & Hrun).
    rewrite Hsent in Hsent'. injection Hsent' as <-.
    rewrite Hup, H200 in Hrun. cbn in Hrun.
    eexists. split; [exact Hrun | reflexivity].
Qed.

Lemma success_exactly_on_200_witness :
  exists result : TestApiKeyResponse,
    outcome (test_api_key (answers 200 "{}")
               {| provider := "financial"; apiKey := "fd-test"; testEndpoint := "" |})
    = inr result /\ success result = true.
Proof.
  apply (proj2 (success_exactly_on_200 (answers 200 "{}")
                  {| provider := "financial"; apiKey := "fd-test";
                     testEndpoint := "" |})).
  split.
  - cbn. unfold providers. set_solver.
  - do 2 eexists. split; [reflexivity |]. split; reflexivity.
Defined.

(** X3.  For a recognised provider, an exception of the client that is not
    an [httpx.RequestError] (an invalid URL, a header that cannot be encoded)
    is not turned into a ProbeResult: the call is answered with status 500
    and a detail that wraps the text of the exception. *)
Theorem unexpected_exception_yields_500 upstream (request : TestApiKeyRequest)
    (r : HttpRequest) (e : exn) :
  r ∈ outbound (test_api_key upstream request) ->
  upstream r = inl e ->
  is_RequestError e = false ->
  post_test_api_key upstream request
  = ReplyError 500 ("Unexpected error testing API key: " +:+ str e).
Proof.
  intros Hr Hup He.
  destruct (decide (provider request ∈ providers)) as [Hp | Hp].
  - destruct (recognized_run upstream request Hp) as (r' & Hsent & Hrun).
    rewrite Hsent in Hr. apply list_elem_of_singleton in Hr. subst r'.
    unfold post_test_api_key. rewrite Hrun, Hup.
    destruct e; try discriminate He; reflexivity.
  - unfold outbound in Hr. rewrite (unrecognized_run upstream request Hp) in Hr.
    cbn in Hr. apply elem_of_nil in Hr. contradiction.
Qed.

Lemma unexpected_exception_yields_500_witness :
  post_test_api_key (fails (OtherException "Invalid non-printable ASCII character in URL"))
    {| provider := "google"; apiKey := "AIza"; testEndpoint := "" |}
  = ReplyError 500
      "Unexpected error testing API key: Invalid non-printable ASCII character in URL".
Proof.
  refine (unexpected_exception_yields_500
            (fails (OtherException "Invalid non-printable ASCII character in URL"))
            {| provider := "google"; apiKey := "AIza"; testEndpoint := "" |}
            {| req_method := GET; req_url := google_url "AIza"; req_headers := None;
               req_json := None; req_timeout := 10 |}
            (OtherException "Invalid non-printable ASCII character in URL") _ _ _).
  - apply list_elem_of_here.
  - reflexivity.
  - reflexivity.
Defined.

(** X4.  In every ProbeResult, details holds a "status_code" entry exactly
    when a response arrived, and the entry is the status of that response;
    the results of a timeout or a network fault have no such entry. *)
Theorem status_code_entry_is_upstream_status upstream (request : TestApiKeyRequest)
    (result : TestApiKeyResponse) :
  outcome (test_api_key upstream request) = inr result ->
  exists r : HttpRequest,
    outbound (test_api_key upstream request) = [r] /\
    details result !! "status_code"
    = match upstream r with
      | inr response => Some (VInt (status_code response))
      | inl _ => None
      end.
Proof.
  intros Hout.
  destruct (decide (provider request ∈ providers)) as [Hp | Hp].
  - destruct (recognized_run upstream request Hp) as (r & Hsent & Hrun).
    exists r. split; [exact Hsent |]. rewrite Hrun in Hout.
    destruct (upstream r) as [e | response].
    + destruct e; cbn in Hout; try discriminate Hout; injection Hout as <-;
        reflexivity.
    + destruct (status_code response =? 200)%Z;
        [| destruct (status_code response =? 401)%Z;
           [| destruct (status_code response =? 403)%Z]];
        injection Hout as <-; reflexivity.
  - unfold outcome in Hout. rewrite (unrecognized_run upstream request Hp) in Hout.
    discriminate Hout.
Qed.

Lemma status_code_entry_is_upstream_status_witness :
  exists r : HttpRequest,
    outbound (test_api_key (answers 429 "slow down")
                {| provider := "groq"; apiKey := "gsk-test"; testEndpoint := "" |})
    = [r] /\
    ({[ "status_code" := VInt 429; "error" := VStr "slow down" ]}
       : gmap string value) !! "status_code"
    = match answers 429 "slow down" r with
      | inr response => Some (VInt (status_code response))
      | inl _ => None
      end.
Proof.
  refine (status_code_entry_is_upstream_status (answers 429 "slow down")
            {| provider := "groq"; apiKey := "gsk-test"; testEndpoint := "" |}
            {| success := false;
               message := "API test failed for groq";
               details := {[ "status_code" := VInt 429;
                             "error" := VStr "slow down" ]} |} _).
  reflexivity.
Defined.

(** X5.  On status 200, 401 and 403 the body of the provider's response is
    not looked at: two responses of the same such status end the call alike,
    whatever their bodies. *)
Theorem body_ignored_on_200_401_403 (request : TestApiKeyRequest)
    (status : Z) (body1 body2 : string) :
  status = 200 \/ status = 401 \/ status = 403 ->
  outcome (test_api_key (answers status body1) request)
  = outcome (test_api_key (answers status body2) request).
Proof.
  intros Hstatus.
  destruct (decide (provider request ∈ providers)) as [Hp | Hp].
  - destruct (recognized_run (answers status body1) request Hp) as (r1 & _ & ->).
    destruct (recognized_run (answers status body2) request Hp) as (r2 & _ & ->).
    unfold answers. cbn [status_code text].
    destruct Hstatus as [-> | [-> | ->]]; reflexivity.
  - unfold outcome.
    rewrite (unrecognized_run (answers status body1) request Hp).
    rewrite (unrecognized_run (answers status body2) request Hp). reflexivity.
Qed.

Lemma body_ignored_on_200_401_403_witness :
  outcome (test_api_key (answers 200 "quota exceeded")
             {| provider := "openai"; apiKey := "sk-test"; testEndpoint := "" |})
  = outcome (test_api_key (answers 200 "ok")
               {| provider := "openai"; apiKey := "sk-test"; testEndpoint := "" |}).
Proof.
  apply (body_ignored_on_200_401_403
           {| provider := "openai"; apiKey := "sk-test"; testEndpoint := "" |} 200).
  left. reflexivity.
Defined.

(** X6.  Whatever the provider name and the key, every request a call sends
    goes to an https URL. *)
Theorem outbound_urls_are_https upstream (request : TestApiKeyRequest) :
  Forall (fun r => String.prefix "https://" (req_url r) = true)
         (outbound (test_api_key upstream request)).
Proof.
  rewrite outbound_canonical.
  destruct (decide (provider request ∈ providers)) as [Hp | Hp].
  - destruct request as [p key endpoint]. cbn [provider] in Hp.
    provider_cases Hp; cbv; repeat constructor.
  - unfold outbound.
    rewrite (unrecognized_run (answers 200 EmptyString) request Hp). constructor.
Qed.

(** X7.  Except for google, the key travels in the headers only: method, URL
    and body of the request sent are the same for every key. *)
Theorem key_only_in_headers_unless_google upstream1 upstream2
    (p key1 key2 endpoint1 endpoint2 : string) :
  p <> "google" ->
  map request_line
      (outbound (test_api_key upstream1
                   {| provider := p; apiKey := key1; testEndpoint := endpoint1 |}))
  = map request_line
        (outbound (test_api_key upstream2
                     {| provider := p; apiKey := key2; testEndpoint := endpoint2 |})).
Proof.
  intros Hgoogle.
  rewrite (outbound_canonical upstream1), (outbound_canonical upstream2).
  destruct (decide (p ∈ providers)) as [Hp | Hp].
  - provider_cases Hp; first [ reflexivity | contradiction Hgoogle; reflexivity ].
  - unfold outbound.
    rewrite !unrecognized_run by exact Hp. reflexivity.
Qed.

Lemma key_only_in_headers_unless_google_witness :
  map request_line
      (outbound (test_api_key (answers 200 "{}")
                   {| provider := "anthropic"; apiKey := "sk-ant-one";
                      testEndpoint := "" |}))
  = map request_line
        (outbound (test_api_key (answers 401 "no")
                     {| provider := "anthropic"; apiKey := "sk-ant-two";
                        testEndpoint := "" |})).
Proof.
  apply (key_only_in_headers_unless_google (answers 200 "{}") (answers 401 "no")
           "anthropic" "sk-ant-one" "sk-ant-two" "" "").
  discriminate.
Defined.

(** X8.  Every ProbeResult names the provider in its message: a failure
    quotes the provider string as submitted, a success its title-cased
    form. *)
Theorem message_names_provider upstream (request : TestApiKeyRequest)
    (result : TestApiKeyResponse) :
  outcome (test_api_key upstream request) = inr result ->
  PyStr.contains
    (if success result then PyStr.title (provider request) else provider request)
    (message result) = true.
Proof.
  intros Hout.
  destruct (decide (provider request ∈ providers)) as [Hp | Hp].
  - destruct (recognized_run upstream request Hp) as (r & _ & Hrun).
    rewrite Hrun in Hout. clear Hrun.
    destruct request as [p key endpoint]. cbn [provider] in *.
    destruct (upstream r) as [e | response].
    + destruct e; cbn in Hout; try discriminate Hout; injection Hout as <-;
        provider_cases Hp; reflexivity.
    + destruct (status_code response =? 200)%Z;
        [| destruct (status_code response =? 401)%Z;
           [| destruct (status_code response =? 403)%Z]];
        injection Hout as <-; provider_cases Hp; reflexivity.
  - unfold outcome in Hout. rewrite (unrecognized_run upstream request Hp) in Hout.
    discriminate Hout.
Qed.

Lemma message_names_provider_witness :
  PyStr.contains "Deepseek" "Deepseek API key is valid" = true.
Proof.
  exact (message_names_provider (answers 200 "{}")
           {| provider := "deepseek"; apiKey := "sk-test"; testEndpoint := "" |}
           {| success := true;
              message := "Deepseek API key is valid";
              details := {[ "status_code" := VInt 200 ]} |} eq_refl).
Defined.

(** ** The key in the google URL *)

(** Splitting a string at a character it does not hold leaves it whole;
    at a character it holds, the first part is shorter. *)
Lemma partition_without (c : ascii) (s : string) :
  occurs c s = false -> Url.partition c s = (s, None).
Proof.
  induction s as [| a rest IH]; [reflexivity |]. cbn.
  destruct (Ascii.eqb a c); [discriminate |]. cbn. intros H. rewrite (IH H). reflexivity.
Qed.

Lemma partition_with (c : ascii) (s : string) :
  occurs c s = true ->
  (String.length (fst (Url.partition c s)) < String.length s)%nat.
Proof.
  induction s as [| a rest IH]; [discriminate |]. cbn.
  destruct (Ascii.eqb a c); cbn.
  - intros _. lia.
  - intros H. specialize (IH H). destruct (Url.partition c rest). cbn in *. lia.
Qed.

Lemma split_without (c : ascii) (s : string) :
  occurs c s = false -> Url.split c s = [s].
Proof.
  induction s as [| a rest IH]; [reflexivity |]. cbn.
  destruct (Ascii.eqb a c); [discriminate |]. cbn. intros H. rewrite (IH H). reflexivity.
Qed.

Lemma split_with (c : ascii) (s : string) :
  occurs c s = true -> exists first second others, Url.split c s = first :: second :: others.
Proof.
  induction s as [| a rest IH]; [discriminate |]. cbn.
  destruct (Ascii.eqb a c); cbn.
  - intros _. destruct (Url.split c rest) as [| x xs] eqn:E.
    + destruct rest; cbn in E; [discriminate |]. destruct (Ascii.eqb a0 c); [discriminate|].
      destruct (Url.split c rest); discriminate.
    + eauto.
  - intros H. destruct (IH H) as (x & y & zs & ->). eauto.
Qed.

Lemma split_first_length (c : ascii) (s first : string) (others : list string) :
  Url.split c s = first :: others -> (String.length first <= String.length s)%nat.
Proof.
  revert first others. induction s as [| a rest IH]; intros first others.
  - cbn. intros [= <- <-]. cbn. lia.
  - cbn. destruct (Ascii.eqb a c).
    + intros [= <- _]. cbn. lia.
    + destruct (Url.split c rest) as [| x xs] eqn:E.
      * intros [= <- _]. cbn. lia.
      * intros [= <- _]. cbn. specialize (IH x xs eq_refl). lia.
Qed.

Lemma params_google (key : string) :
  Url.params (google_url key)
  = match Url.split "&" (fst (Url.partition "#" key)) with
    | first :: others =>
        ("key", first)
        :: map (fun pair => let (name, val) := Url.partition "=" pair in
                            (name, default EmptyString val)) others
    | [] => [("key", EmptyString)]
    end.
Proof.
  let url := eval cbv in (google_url key) in change (google_url key) with url.
  unfold Url.params, Url.query. cbn.
  destruct (Url.partition "#" key) as [before after]. cbn.
  destruct (Url.split "&" before) as [| first others]; reflexivity.
Qed.

(** The raw query of the google URL is the single pair key=<key> exactly
    for the keys without "#" and "&". *)
Lemma google_query_iff (key : string) :
  Url.params (google_url key) = [("key", key)]
  <-> occurs "#" key = false /\ occurs "&" key = false.
Proof.
  rewrite params_google. split.
  - intros Hparams.
    destruct (occurs "#" key) eqn:Hhash.
    + exfalso. pose proof (partition_with _ _ Hhash) as Hshort.
      destruct (Url.split "&" (fst (Url.partition "#" key))) as [| first others] eqn:Hsplit.
      * injection Hparams as <-. discriminate Hhash.
      * injection Hparams as -> _.
        apply split_first_length in Hsplit. lia.
    + split; [reflexivity |].
      rewrite (partition_without _ _ Hhash) in Hparams. cbn [fst] in Hparams.
      destruct (occurs "&" key) eqn:Hamp; [| reflexivity].
      destruct (split_with _ _ Hamp) as (first & second & others & Hsplit).
      rewrite Hsplit in Hparams. discriminate Hparams.
  - intros [Hhash Hamp].
    rewrite (partition_without _ _ Hhash). cbn [fst].
    rewrite (split_without _ _ Hamp). reflexivity.
Qed.

(** X9.  In the URL the handler builds for google, the raw query (before
    any percent-decoding) is the single pair key=<apiKey> with the key
    verbatim exactly when the key holds neither "#" nor "&"; for any other
    key the raw value is cut short or the query holds several pairs. *)
Theorem google_query_reads_back_key upstream (key endpoint : string) :
  exists r : HttpRequest,
    outbound (test_api_key upstream
                {| provider := "google"; apiKey := key; testEndpoint := endpoint |})
    = [r] /\
    (Url.params (req_url r) = [("key", key)]
     <-> occurs "#" key = false /\ occurs "&" key = false).
Proof.
  exists {| req_method := GET; req_url := google_url key; req_headers := None;
            req_json := None; req_timeout := 10 |}.
  split.
  - rewrite outbound_canonical. reflexivity.
  - apply google_query_iff.
Qed.

(** ** Further properties of the presence report *)

(** Case analysis on a pair of [status_variables]. *)
Ltac status_variable_cases H :=
  unfold status_variables in H;
  rewrite !elem_of_cons, elem_of_nil in H;
  destruct H as [H | [H | [H | [H | [H | [H | H]]]]]];
  try contradiction; injection H as -> ->.

(** X10.  In whatever module namespace it runs, [get_api_key_status] sends no
    request and fails in one way only, a [NameError] when [os] is unbound.
    When [os] is bound it returns a report over exactly the six providers,
    each with [configured] telling whether its variable is set and not
    empty and [required] true for openai alone. *)
Theorem presence_report_in_any_namespace (environ : gmap string string)
    (globals : list string) :
  outbound (get_api_key_status_in environ globals) = [] /\
  ((("os" ∉ globals) /\
    outcome (get_api_key_status_in environ globals) = inl (NameError "os")) \/
   ("os" ∈ globals /\
    exists report : gmap string (gmap string bool),
      outcome (get_api_key_status_in environ globals) = inr report /\
      dom report = list_to_set providers /\
      forall p v : string,
        (p, v) ∈ status_variables ->
        report !! p = Some {[ "configured" := bool_of (environ !! v);
                              "required" := bool_decide (p = "openai") ]})).
Proof.
  destruct (decide ("os" ∈ globals)) as [Hos | Hos].
  - unfold outbound, outcome. rewrite (get_api_key_status_with_os _ _ Hos).
    split; [reflexivity |]. right. split; [exact Hos |].
    eexists. split; [reflexivity |]. split.
    + rewrite !dom_insert_L, dom_singleton_L. unfold providers. cbn [list_to_set].
      set_solver.
    + intros p v Hpv. status_variable_cases Hpv; reflexivity.
  - assert (run (get_api_key_status_in environ globals) = ([], inl (NameError "os")))
      as Hrun.
    { unfold run, get_api_key_status_in, os_getenv, load_global, mbind, mret,
        Py_bind, Py_ret.
      rewrite (bool_decide_eq_false_2 _ Hos). reflexivity. }
    unfold outbound, outcome. rewrite Hrun.
    split; [reflexivity |]. left. split; [exact Hos | reflexivity].
Qed.

(** X11.  The report reveals presence only: two environments in which the
    same of the six variables are set and not empty give the same outcome,
    whatever values the variables hold. *)
Theorem presence_report_hides_values (environ1 environ2 : gmap string string)
    (globals : list string) :
  (forall p v : string,
      (p, v) ∈ status_variables ->
      bool_of (environ1 !! v) = bool_of (environ2 !! v)) ->
  run (get_api_key_status_in environ1 globals)
  = run (get_api_key_status_in environ2 globals).
Proof.
  intros Hsame.
  destruct (decide ("os" ∈ globals)) as [Hos | Hos].
  - rewrite !get_api_key_status_with_os by exact Hos.
    rewrite (Hsame "openai" "OPENAI_API_KEY"),
      (Hsame "anthropic" "ANTHROPIC_API_KEY"),
      (Hsame "groq" "GROQ_API_KEY"),
      (Hsame "deepseek" "DEEPSEEK_API_KEY"),
      (Hsame "google" "GOOGLE_API_KEY"),
      (Hsame "financial" "FINANCIAL_DATASETS_API_KEY")
      by (unfold status_variables; set_solver).
    reflexivity.
  - unfold run, get_api_key_status_in, os_getenv, load_global, mbind, mret,
      Py_bind, Py_ret.
    rewrite (bool_decide_eq_false_2 _ Hos). reflexivity.
Qed.

Lemma presence_report_hides_values_witness :
  run (get_api_key_status_in {[ "OPENAI_API_KEY" := "sk-one"; "GROQ_API_KEY" := "" ]}
         ("os" :: module_globals))
  = run (get_api_key_status_in {[ "OPENAI_API_KEY" := "sk-two"; "HOME" := "/root" ]}
           ("os" :: module_globals)).
Proof.
  apply (presence_report_hides_values
           {[ "OPENAI_API_KEY" := "sk-one"; "GROQ_API_KEY" := "" ]}
           {[ "OPENAI_API_KEY" := "sk-two"; "HOME" := "/root" ]}
           ("os" :: module_globals)).
  intros p v Hpv. status_variable_cases Hpv; reflexivity.
Defined.
